(** * HyperCLOVA X adapter: credentials augmentation, parameter mapping, facade

    A shallow embedding of [models/llm/llm.py]
    (class [HyperCLOVAXLargeLanguageModel]) and the properties of its three
    functions and two delegating entry points.

    Python dictionaries with string keys are finite maps [gmap string pyval];
    in-place mutation of a dictionary is explicit state passing: a function
    that mutates its argument returns the dictionary after the mutation. *)

From stdpp Require Import gmap strings list fin_maps.

Open Scope string_scope.

(** ** Python values stored in the two dictionaries *)

(** The adapter itself writes only [str] values and [None]; callers put
    numbers, booleans and other objects (kept by reference) in them. *)
Inductive pyval : Type :=
  | PyNone
  | PyBool (b : bool)
  | PyInt (n : Z)
  | PyStr (s : string)
  | PyObj (ref : positive).

#[global] Instance pyval_eq_dec : EqDecision pyval.
Proof. solve_decision. Defined.

Abbreviation dict := (gmap string pyval).

(** Outcome of a Python call that may raise [KeyError]. *)
Inductive result (A : Type) : Type :=
  | Ok (a : A)
  | KeyError (key : string).
Arguments Ok {A} a.
Arguments KeyError {A} key.

(** ** Dictionary primitives used by the source *)

Module PyDict.

(** [d[k] = v] *)
Definition setitem (k : string) (v : pyval) (d : dict) : dict := <[k := v]> d.

(** [k in d] *)
Definition contains (k : string) (d : dict) : bool :=
  match d !! k with
  | Some _ => true
  | None => false
  end.

(** [d.pop(k)]: the value removed and the dictionary left, or [KeyError]. *)
Definition pop (k : string) (d : dict) : result (pyval * dict) :=
  match d !! k with
  | Some v => Ok (v, delete k d)
  | None => KeyError k
  end.

End PyDict.

(** [x in [a, b, ...]] on strings. *)
Definition str_in (x : string) (l : list string) : bool :=
  existsb (String.eqb x) l.

(** Modelled from the spec: the enum member [LLMMode.CHAT] is imported from the
    [dify_plugin] package, which is outside this repository; the spec fixes its
    [.value] to the string "chat". *)
Definition LLMMode_CHAT_value : string := "chat".

(** ** [_add_custom_parameters] *)

Definition _add_custom_parameters (credentials : dict) (model : string) : dict :=
  let credentials :=
    PyDict.setitem "endpoint_url"
      (PyStr "https://clovastudio.stream.ntruss.com/v1/openai") credentials in
  let credentials := PyDict.setitem "mode" (PyStr LLMMode_CHAT_value) credentials in
  let credentials :=
    if str_in model ["HCX-007"; "HCX-005"; "HCX-DASH-002"] then
      let credentials :=
        PyDict.setitem "function_calling_type" (PyStr "tool_call") credentials in
      PyDict.setitem "stream_function_calling" (PyStr "support") credentials
    else
      let credentials := PyDict.setitem "function_calling_type" PyNone credentials in
      PyDict.setitem "stream_function_calling" (PyStr "no_support") credentials in
  if String.eqb model "HCX-005" then
    PyDict.setitem "vision_support" (PyStr "support") credentials
  else
    PyDict.setitem "vision_support" (PyStr "no_support") credentials.

(** ** [_update_model_parameters] *)

(** The dictionary is mutated in place and the same object is returned, so the
    result is also the state of the caller's dictionary after the call. *)
Definition _update_model_parameters (model : string) (model_parameters : dict)
  : result dict :=
  let model_parameters :=
    if String.eqb model "HCX-007"
       && negb (PyDict.contains "reasoning_effort" model_parameters)
    then PyDict.setitem "reasoning_effort" (PyStr "medium") model_parameters
    else model_parameters in
  if PyDict.contains "max_tokens" model_parameters && String.eqb model "HCX-007" then
    match PyDict.pop "max_tokens" model_parameters with
    | Ok (v, model_parameters) =>
        Ok (PyDict.setitem "max_completion_tokens" v model_parameters)
    | KeyError k => KeyError k
    end
  else Ok model_parameters.

(** ** The facade: [_invoke] and [validate_credentials] *)

(** A parameter of the callee that the call site either supplies or leaves to
    the callee's default. *)
Inductive passed (A : Type) : Type :=
  | Passed (a : A)
  | Omitted.
Arguments Passed {A} a.
Arguments Omitted {A}.

Section Facade.

(** Message and tool descriptions belong to the external base client. *)
Variables PromptMessage PromptMessageTool : Type.

(** The call [super()._invoke(...)] seen by the base client, one field per
    parameter of its signature
    (model, credentials, prompt messages, parameters, tools, stop, stream, user). *)
Record super_invoke_call : Type := SuperInvoke {
  si_model : string;
  si_credentials : dict;
  si_prompt_messages : list PromptMessage;
  si_model_parameters : dict;
  si_tools : option (list PromptMessageTool);
  si_stop : option (list string);
  si_stream : bool;
  si_user : passed (option string)
}.

(** The call [super().validate_credentials(model, credentials)]. *)
Record super_validate_call : Type := SuperValidate {
  sv_model : string;
  sv_credentials : dict
}.

(** [_invoke] mutates [credentials] and returns whatever the base client
    returns for the delegated call; the embedding returns that call. The
    [credentials] handed over is the caller's dictionary after mutation. *)
Definition _invoke (model : string) (credentials : dict)
    (prompt_messages : list PromptMessage) (model_parameters : dict)
    (tools : option (list PromptMessageTool)) (stop : option (list string))
    (stream : bool) (user : option string) : super_invoke_call :=
  let credentials := _add_custom_parameters credentials model in
  SuperInvoke model credentials prompt_messages model_parameters tools stop
    stream Omitted.

Definition validate_credentials (model : string) (credentials : dict)
  : super_validate_call :=
  let credentials := _add_custom_parameters credentials model in
  SuperValidate model credentials.

End Facade.

Arguments SuperInvoke {PromptMessage PromptMessageTool}.
Arguments si_model {PromptMessage PromptMessageTool}.
Arguments si_credentials {PromptMessage PromptMessageTool}.
Arguments si_prompt_messages {PromptMessage PromptMessageTool}.
Arguments si_model_parameters {PromptMessage PromptMessageTool}.
Arguments si_tools {PromptMessage PromptMessageTool}.
Arguments si_stop {PromptMessage PromptMessageTool}.
Arguments si_stream {PromptMessage PromptMessageTool}.
Arguments si_user {PromptMessage PromptMessageTool}.
Arguments _invoke {PromptMessage PromptMessageTool}.

(** The augmented keys, in the order the source writes them. *)
Definition augmented_keys : list string :=
  ["endpoint_url"; "mode"; "function_calling_type"; "stream_function_calling";
   "vision_support"].

(** ** Concrete runs *)

Example augment_hcx005 :
  _add_custom_parameters {["api_key" := PyStr "k"]} "HCX-005"
  = {[ "api_key" := PyStr "k";
       "endpoint_url" := PyStr "https://clovastudio.stream.ntruss.com/v1/openai";
       "mode" := PyStr "chat";
       "function_calling_type" := PyStr "tool_call";
       "stream_function_calling" := PyStr "support";
       "vision_support" := PyStr "support" ]}.
Proof. by vm_compute. Qed.

Example augment_hcx003 :
  _add_custom_parameters ∅ "HCX-003"
  = {[ "endpoint_url" := PyStr "https://clovastudio.stream.ntruss.com/v1/openai";
       "mode" := PyStr "chat";
       "function_calling_type" := PyNone;
       "stream_function_calling" := PyStr "no_support";
       "vision_support" := PyStr "no_support" ]}.
Proof. by vm_compute. Qed.

Example update_hcx007_empty :
  _update_model_parameters "HCX-007" ∅ = Ok {["reasoning_effort" := PyStr "medium"]}.
Proof. by vm_compute. Qed.

Example update_hcx007_high :
  _update_model_parameters "HCX-007" {["reasoning_effort" := PyStr "high"]}
  = Ok {["reasoning_effort" := PyStr "high"]}.
Proof. by vm_compute. Qed.

Example update_hcx007_max_tokens :
  _update_model_parameters "HCX-007" {["max_tokens" := PyInt 256]}
  = Ok {["max_completion_tokens" := PyInt 256; "reasoning_effort" := PyStr "medium"]}.
Proof. by vm_compute. Qed.

Example update_hcx005_max_tokens :
  _update_model_parameters "HCX-005" {["max_tokens" := PyInt 256]}
  = Ok {["max_tokens" := PyInt 256]}.
Proof. by vm_compute. Qed.

(** ** Helper facts about the primitives *)

Lemma str_in_true (x : string) (l : list string) : str_in x l = true ↔ x ∈ l.
Proof.
  unfold str_in. rewrite existsb_exists, list_elem_of_In. split.
  - intros (y & Hy & Heq). apply String.eqb_eq in Heq. by subst.
  - intros Hx. exists x. split; [done | apply String.eqb_refl].
Qed.

Lemma str_in_false (x : string) (l : list string) : str_in x l = false ↔ x ∉ l.
Proof.
  rewrite <- str_in_true. by destruct (str_in x l).
Qed.

Lemma contains_true (k : string) (d : dict) :
  PyDict.contains k d = true ↔ is_Some (d !! k).
Proof.
  unfold PyDict.contains. destruct (d !! k) eqn:E; split; done.
Qed.

(** Case analysis on the two tests of [_add_custom_parameters]. *)
Ltac augment_cases model :=
  unfold _add_custom_parameters, PyDict.setitem, LLMMode_CHAT_value;
  destruct (str_in model ["HCX-007"; "HCX-005"; "HCX-DASH-002"]) eqn:?Htool;
  destruct (String.eqb model "HCX-005") eqn:?Hvision.

(** Keys of the dictionary after augmentation. *)
Lemma _add_custom_parameters_dom (credentials : dict) (model : string) :
  dom (_add_custom_parameters credentials model)
  = list_to_set augmented_keys ∪ dom credentials.
Proof.
  apply set_eq. intros k.
  augment_cases model; rewrite !dom_insert_L; unfold augmented_keys; simpl;
    rewrite !elem_of_union, !elem_of_singleton, elem_of_empty; tauto.
Qed.

(** [_update_model_parameters] never raises: the [pop] is guarded by the
    membership test on the same key. *)
Lemma _update_model_parameters_total (model : string) (model_parameters : dict) :
  ∃ r, _update_model_parameters model model_parameters = Ok r.
Proof.
  unfold _update_model_parameters.
  generalize (if String.eqb model "HCX-007"
                 && negb (PyDict.contains "reasoning_effort" model_parameters)
              then PyDict.setitem "reasoning_effort" (PyStr "medium") model_parameters
              else model_parameters).
  intros mp.
  destruct (PyDict.contains "max_tokens" mp && String.eqb model "HCX-007") eqn:E;
    [| by eexists].
  apply andb_true_iff in E as [[v Hv]%contains_true _].
  unfold PyDict.pop. rewrite Hv. by eexists.
Qed.

(** Closed form of the mapper on the reasoning model. *)
Lemma _update_model_parameters_hcx007 (model_parameters : dict) :
  _update_model_parameters "HCX-007" model_parameters
  = let mp := match model_parameters !! "reasoning_effort" with
              | Some _ => model_parameters
              | None => <["reasoning_effort" := PyStr "medium"]> model_parameters
              end in
    Ok match model_parameters !! "max_tokens" with
       | Some v => <["max_completion_tokens" := v]> (delete "max_tokens" mp)
       | None => mp
       end.
Proof.
  unfold _update_model_parameters, PyDict.contains, PyDict.pop, PyDict.setitem.
  change (String.eqb "HCX-007" "HCX-007") with true. simpl.
  destruct (model_parameters !! "reasoning_effort") as [e|] eqn:He; simpl.
  - by destruct (model_parameters !! "max_tokens").
  - rewrite lookup_insert_ne by done.
    by destruct (model_parameters !! "max_tokens").
Qed.

(** What [_add_custom_parameters] leaves under each of the keys it writes. *)
Lemma _add_custom_parameters_lookup (credentials : dict) (model : string) :
  let c := _add_custom_parameters credentials model in
  c !! "endpoint_url" = Some (PyStr "https://clovastudio.stream.ntruss.com/v1/openai")
  ∧ c !! "mode" = Some (PyStr "chat")
  ∧ c !! "function_calling_type"
    = Some (if str_in model ["HCX-007"; "HCX-005"; "HCX-DASH-002"]
            then PyStr "tool_call" else PyNone)
  ∧ c !! "stream_function_calling"
    = Some (PyStr (if str_in model ["HCX-007"; "HCX-005"; "HCX-DASH-002"]
                   then "support" else "no_support"))
  ∧ c !! "vision_support"
    = Some (PyStr (if String.eqb model "HCX-005" then "support" else "no_support")).
Proof.
  augment_cases model; repeat split; by simplify_map_eq.
Qed.

(** ** Credential Augmenter *)

(** C2: augmentation sets [function_calling_type] to "tool_call" and
    [stream_function_calling] to "support" exactly when the model identifier is
    one of "HCX-007", "HCX-005", "HCX-DASH-002"; for every other identifier it
    sets [function_calling_type] to [None] and [stream_function_calling] to
    "no_support". *)
Theorem function_calling_flags (credentials : dict) (model : string) :
  let c := _add_custom_parameters credentials model in
  (model ∈ ["HCX-007"; "HCX-005"; "HCX-DASH-002"]
   ↔ c !! "function_calling_type" = Some (PyStr "tool_call")
     ∧ c !! "stream_function_calling" = Some (PyStr "support"))
  ∧ (model ∉ ["HCX-007"; "HCX-005"; "HCX-DASH-002"]
     ↔ c !! "function_calling_type" = Some PyNone
       ∧ c !! "stream_function_calling" = Some (PyStr "no_support")).
Proof.
  intros c.
  destruct (_add_custom_parameters_lookup credentials model)
    as (_ & _ & Hf & Hs & _).
  fold c in Hf, Hs. rewrite Hf, Hs.
  rewrite <- str_in_false, <- str_in_true.
  destruct (str_in model _); split; split; try done; by intros [? ?].
Qed.

(** C3: augmentation sets [vision_support] to "support" if and only if the
    model identifier equals "HCX-005"; every other identifier gets
    "no_support". *)
Theorem vision_support_flag (credentials : dict) (model : string) :
  let c := _add_custom_parameters credentials model in
  (model = "HCX-005" ↔ c !! "vision_support" = Some (PyStr "support"))
  ∧ (model ≠ "HCX-005" ↔ c !! "vision_support" = Some (PyStr "no_support")).
Proof.
  intros c.
  destruct (_add_custom_parameters_lookup credentials model)
    as (_ & _ & _ & _ & Hv).
  fold c in Hv. rewrite Hv.
  destruct (String.eqb_spec model "HCX-005") as [-> | Hne];
    split; split; try done.
Qed.

(** C7: after augmentation all five keys [endpoint_url], [mode],
    [function_calling_type], [stream_function_calling], [vision_support] are
    present; [endpoint_url] is the fixed vendor URL and [mode] is "chat",
    whatever the model identifier. *)
Theorem augmented_keys_present (credentials : dict) (model : string) :
  let c := _add_custom_parameters credentials model in
  Forall (λ k, is_Some (c !! k))
    ["endpoint_url"; "mode"; "function_calling_type"; "stream_function_calling";
     "vision_support"]
  ∧ c !! "endpoint_url"
    = Some (PyStr "https://clovastudio.stream.ntruss.com/v1/openai")
  ∧ c !! "mode" = Some (PyStr "chat").
Proof.
  intros c.
  destruct (_add_custom_parameters_lookup credentials model)
    as (He & Hm & Hf & Hs & Hv).
  fold c in He, Hm, Hf, Hs, Hv.
  split; [| by split].
  repeat constructor; by eexists.
Qed.

(** C9: augmentation touches only the five keys it writes: every other key
    has after the call exactly the binding (or absence) it had before. *)
Theorem augmentation_frame (credentials : dict) (model k : string) :
  k ∉ ["endpoint_url"; "mode"; "function_calling_type"; "stream_function_calling";
       "vision_support"] →
  _add_custom_parameters credentials model !! k = credentials !! k.
Proof.
  intros Hk. rewrite !not_elem_of_cons in Hk.
  destruct Hk as (H1 & H2 & H3 & H4 & H5 & _).
  augment_cases model; by rewrite !lookup_insert_ne.
Qed.

Lemma augmentation_frame_witness :
  ("api_key" ∉ ["endpoint_url"; "mode"; "function_calling_type";
                "stream_function_calling"; "vision_support"])
  ∧ _add_custom_parameters {["api_key" := PyStr "nv-1234"]} "HCX-007" !! "api_key"
    = Some (PyStr "nv-1234").
Proof.
  assert (Hk : "api_key" ∉ ["endpoint_url"; "mode"; "function_calling_type";
                            "stream_function_calling"; "vision_support"]).
  { rewrite !not_elem_of_cons. repeat split; try done. apply not_elem_of_nil. }
  split; [exact Hk |].
  rewrite (augmentation_frame {["api_key" := PyStr "nv-1234"]} "HCX-007" "api_key" Hk).
  reflexivity.
Defined.

(** ** Parameter Mapper *)

(** C4: for a model identifier other than "HCX-007" the mapper returns the
    mapping it was given, unmodified. *)
Theorem mapper_identity_off_hcx007 (model : string) (model_parameters : dict) :
  model ≠ "HCX-007" →
  _update_model_parameters model model_parameters = Ok model_parameters.
Proof.
  intros Hne. apply String.eqb_neq in Hne.
  unfold _update_model_parameters. rewrite Hne. simpl.
  by rewrite andb_false_r.
Qed.

Lemma mapper_identity_off_hcx007_witness :
  "HCX-005" ≠ "HCX-007"
  ∧ _update_model_parameters "HCX-005"
      {["max_tokens" := PyInt 256; "temperature" := PyObj 1]}
    = Ok {["max_tokens" := PyInt 256; "temperature" := PyObj 1]}.
Proof.
  assert (Hne : "HCX-005" ≠ "HCX-007") by done.
  split; [exact Hne |].
  exact (mapper_identity_off_hcx007 "HCX-005"
           {["max_tokens" := PyInt 256; "temperature" := PyObj 1]} Hne).
Defined.

(** C5: for "HCX-007" the mapper succeeds, and in its result
    [reasoning_effort] is "medium" when the key was absent from the input and
    is the caller's own value when the key was present. *)
Theorem reasoning_effort_default (model_parameters : dict) :
  ∃ r, _update_model_parameters "HCX-007" model_parameters = Ok r
       ∧ r !! "reasoning_effort"
         = match model_parameters !! "reasoning_effort" with
           | Some v => Some v
           | None => Some (PyStr "medium")
           end.
Proof.
  rewrite _update_model_parameters_hcx007. cbv zeta.
  eexists; split; [reflexivity |].
  destruct (model_parameters !! "reasoning_effort") as [e|] eqn:He;
    destruct (model_parameters !! "max_tokens") as [t|] eqn:Ht;
    by simplify_map_eq.
Qed.

(** C6: for "HCX-007" and a mapping that holds [max_tokens], the mapper
    succeeds; in its result [max_tokens] is absent and
    [max_completion_tokens] holds the value [max_tokens] had. *)
Theorem max_tokens_renamed (model_parameters : dict) (v : pyval) :
  model_parameters !! "max_tokens" = Some v →
  ∃ r, _update_model_parameters "HCX-007" model_parameters = Ok r
       ∧ r !! "max_tokens" = None
       ∧ r !! "max_completion_tokens" = Some v.
Proof.
  intros Hv. rewrite _update_model_parameters_hcx007. cbv zeta. rewrite Hv.
  eexists; split; [reflexivity |].
  split; by simplify_map_eq.
Qed.

Lemma max_tokens_renamed_witness :
  ({["max_tokens" := PyInt 256]} : dict) !! "max_tokens" = Some (PyInt 256)
  ∧ ∃ r, _update_model_parameters "HCX-007" {["max_tokens" := PyInt 256]} = Ok r
         ∧ r !! "max_tokens" = None
         ∧ r !! "max_completion_tokens" = Some (PyInt 256).
Proof.
  assert (Hv : ({["max_tokens" := PyInt 256]} : dict) !! "max_tokens"
               = Some (PyInt 256)) by reflexivity.
  split; [exact Hv |].
  exact (max_tokens_renamed {["max_tokens" := PyInt 256]} (PyInt 256) Hv).
Defined.

(** C10: for "HCX-007", when the mapping holds both [max_tokens] and
    [max_completion_tokens], the result binds [max_completion_tokens] to the
    value of [max_tokens]; the value the caller had put under
    [max_completion_tokens] is gone. *)
Theorem max_completion_tokens_overwritten (model_parameters : dict) (v w : pyval) :
  model_parameters !! "max_tokens" = Some v →
  model_parameters !! "max_completion_tokens" = Some w →
  ∃ r, _update_model_parameters "HCX-007" model_parameters = Ok r
       ∧ r !! "max_completion_tokens" = Some v
       ∧ (v ≠ w → r !! "max_completion_tokens" ≠ Some w).
Proof.
  intros Hv Hw. rewrite _update_model_parameters_hcx007. cbv zeta. rewrite Hv.
  eexists; split; [reflexivity |].
  rewrite lookup_insert_eq. split; [done | congruence].
Qed.

Lemma max_completion_tokens_overwritten_witness :
  let mp : dict := {["max_tokens" := PyInt 256; "max_completion_tokens" := PyInt 1024]} in
  mp !! "max_tokens" = Some (PyInt 256)
  ∧ mp !! "max_completion_tokens" = Some (PyInt 1024)
  ∧ ∃ r, _update_model_parameters "HCX-007" mp = Ok r
         ∧ r !! "max_completion_tokens" = Some (PyInt 256)
         ∧ (PyInt 256 ≠ PyInt 1024 → r !! "max_completion_tokens" ≠ Some (PyInt 1024)).
Proof.
  intros mp.
  assert (Hv : mp !! "max_tokens" = Some (PyInt 256)) by reflexivity.
  assert (Hw : mp !! "max_completion_tokens" = Some (PyInt 1024)) by reflexivity.
  split; [exact Hv |]. split; [exact Hw |].
  exact (max_completion_tokens_overwritten mp (PyInt 256) (PyInt 1024) Hv Hw).
Defined.

(** ** Invocation Facade *)

Section FacadeFacts.

Context {PromptMessage PromptMessageTool : Type}.

(** Every argument that [_invoke] hands to the base client, field by field. *)
Lemma _invoke_delegates (model : string) (credentials : dict)
    (prompt_messages : list PromptMessage) (model_parameters : dict)
    (tools : option (list PromptMessageTool)) (stop : option (list string))
    (stream : bool) (user : option string) :
  _invoke model credentials prompt_messages model_parameters tools stop stream user
  = SuperInvoke model (_add_custom_parameters credentials model) prompt_messages
      model_parameters tools stop stream Omitted.
Proof. reflexivity. Qed.

(** The delegated call does not depend on the [user] argument. *)
Lemma _invoke_ignores_user (model : string) (credentials : dict)
    (prompt_messages : list PromptMessage) (model_parameters : dict)
    (tools : option (list PromptMessageTool)) (stop : option (list string))
    (stream : bool) (user user' : option string) :
  _invoke model credentials prompt_messages model_parameters tools stop stream user
  = _invoke model credentials prompt_messages model_parameters tools stop stream user'.
Proof. reflexivity. Qed.

(** C8: for the same model identifier and the same credentials, the
    credentials that [validate_credentials] hands to the base client are the
    ones [_invoke] hands to it: the two mappings are equal, and in particular
    agree on [endpoint_url], [mode] and the three capability flags, all of
    which are present. *)
Theorem validate_same_augmentation (model : string) (credentials : dict)
    (prompt_messages : list PromptMessage) (model_parameters : dict)
    (tools : option (list PromptMessageTool)) (stop : option (list string))
    (stream : bool) (user : option string) :
  let invoked :=
    si_credentials (_invoke model credentials prompt_messages model_parameters
                      tools stop stream user) in
  let validated := sv_credentials (validate_credentials model credentials) in
  invoked = validated
  ∧ Forall (λ k, is_Some (invoked !! k) ∧ invoked !! k = validated !! k)
      ["endpoint_url"; "mode"; "function_calling_type";
       "stream_function_calling"; "vision_support"].
Proof.
  intros invoked validated.
  assert (Heq : invoked = validated) by reflexivity.
  split; [exact Heq |]. rewrite <- Heq.
  destruct (_add_custom_parameters_lookup credentials model)
    as (He & Hm & Hf & Hs & Hv).
  repeat constructor; by eexists.
Qed.

End FacadeFacts.

(** C1: [_invoke] is called with a user identifier and hands every other
    argument to the base client as received (the credentials after
    augmentation), but the delegated call carries no user argument: the
    identifier is not passed through. *)
Theorem _invoke_omits_user :
  let call :=
    _invoke (PromptMessage := string) (PromptMessageTool := string)
      "HCX-005" {["api_key" := PyStr "nv-1234"]} ["hello"]
      {["temperature" := PyObj 1]} (Some ["search"]) (Some ["END"]) false
      (Some "user-42") in
  si_model call = "HCX-005"
  ∧ si_credentials call
    = _add_custom_parameters {["api_key" := PyStr "nv-1234"]} "HCX-005"
  ∧ si_prompt_messages call = ["hello"]
  ∧ si_model_parameters call = {["temperature" := PyObj 1]}
  ∧ si_tools call = Some ["search"]
  ∧ si_stop call = Some ["END"]
  ∧ si_stream call = false
  ∧ si_user call = Omitted
  ∧ si_user call ≠ Passed (Some "user-42").
Proof.
  intros call. repeat split; try reflexivity. discriminate.
Qed.

(** ** Further properties of the Credential Augmenter *)

(** Augmentation overlays a table that depends on the model alone on the
    credentials it is given; the table wins on the keys it binds. *)
Lemma _add_custom_parameters_overlay (credentials : dict) (model : string) :
  _add_custom_parameters credentials model
  = _add_custom_parameters ∅ model ∪ credentials.
Proof.
  augment_cases model; rewrite <- !insert_union_l; by rewrite (left_id_L ∅ (∪)).
Qed.

Lemma _add_custom_parameters_table_dom (model : string) :
  dom (_add_custom_parameters ∅ model) = list_to_set augmented_keys.
Proof.
  rewrite _add_custom_parameters_dom, dom_empty_L. by rewrite (right_id_L ∅ (∪)).
Qed.

Lemma _add_custom_parameters_table_None (model k : string) :
  k ∉ augmented_keys → _add_custom_parameters ∅ model !! k = None.
Proof.
  intros Hk. apply not_elem_of_dom.
  rewrite _add_custom_parameters_table_dom. by rewrite elem_of_list_to_set.
Qed.

Lemma _add_custom_parameters_table_Some (model k : string) :
  k ∈ augmented_keys → is_Some (_add_custom_parameters ∅ model !! k).
Proof.
  intros Hk. apply elem_of_dom.
  rewrite _add_custom_parameters_table_dom. by rewrite elem_of_list_to_set.
Qed.

(** X1: augmenting a mapping that was already augmented, for the same or for
    another model, gives what augmenting the original mapping for the last
    model gives: nothing of the earlier augmentation survives, and
    augmentation is idempotent. *)
Theorem augmentation_last_model_wins (credentials : dict) (model1 model2 : string) :
  _add_custom_parameters (_add_custom_parameters credentials model1) model2
  = _add_custom_parameters credentials model2.
Proof.
  rewrite (_add_custom_parameters_overlay (_add_custom_parameters _ _)).
  rewrite (_add_custom_parameters_overlay credentials model1).
  rewrite (_add_custom_parameters_overlay credentials model2).
  apply map_eq. intros k. rewrite !lookup_union.
  destruct (decide (k ∈ augmented_keys)) as [Hin | Hout].
  - destruct (_add_custom_parameters_table_Some model2 k Hin) as [v ->].
    by rewrite !union_Some_l.
  - by rewrite (_add_custom_parameters_table_None model1 k Hout), (left_id_L None _).
Qed.

(** X2: whatever the caller stored under the five augmented keys is
    overwritten: two mappings that agree on every other key are augmented to
    the same mapping. *)
Theorem augmentation_overrides_caller_values (c1 c2 : dict) (model : string) :
  (∀ k, k ∉ ["endpoint_url"; "mode"; "function_calling_type";
              "stream_function_calling"; "vision_support"] → c1 !! k = c2 !! k) →
  _add_custom_parameters c1 model = _add_custom_parameters c2 model.
Proof.
  intros Hagree.
  rewrite (_add_custom_parameters_overlay c1), (_add_custom_parameters_overlay c2).
  apply map_eq. intros k. rewrite !lookup_union.
  destruct (decide (k ∈ augmented_keys)) as [Hin | Hout].
  - destruct (_add_custom_parameters_table_Some model k Hin) as [v ->].
    by rewrite !union_Some_l.
  - by rewrite (Hagree k Hout).
Qed.

Lemma augmentation_overrides_caller_values_witness :
  let c1 : dict := {["api_key" := PyStr "nv-1234";
                     "endpoint_url" := PyStr "http://localhost:8080";
                     "vision_support" := PyStr "support"]} in
  let c2 : dict := {["api_key" := PyStr "nv-1234"]} in
  _add_custom_parameters c1 "HCX-003" = _add_custom_parameters c2 "HCX-003"
  ∧ _add_custom_parameters c1 "HCX-003" !! "endpoint_url"
    = Some (PyStr "https://clovastudio.stream.ntruss.com/v1/openai").
Proof.
  intros c1 c2.
  assert (Hagree : ∀ k, k ∉ ["endpoint_url"; "mode"; "function_calling_type";
                              "stream_function_calling"; "vision_support"] →
                        c1 !! k = c2 !! k).
  { intros k Hk. rewrite !not_elem_of_cons in Hk.
    destruct Hk as (H1 & _ & _ & _ & H5 & _).
    unfold c1, c2.
    destruct (decide (k = "api_key")) as [-> | Hapi]; [reflexivity |].
    rewrite !lookup_insert_ne by done.
    by rewrite !lookup_singleton_ne. }
  split; [exact (augmentation_overrides_caller_values c1 c2 "HCX-003" Hagree) |].
  reflexivity.
Defined.

(** X3: the two function-calling flags never disagree: after augmentation
    [function_calling_type] is "tool_call" exactly when
    [stream_function_calling] is "support", and is [None] exactly when
    [stream_function_calling] is "no_support". *)
Theorem function_calling_flags_consistent (credentials : dict) (model : string) :
  let c := _add_custom_parameters credentials model in
  (c !! "function_calling_type" = Some (PyStr "tool_call")
   ↔ c !! "stream_function_calling" = Some (PyStr "support"))
  ∧ (c !! "function_calling_type" = Some PyNone
     ↔ c !! "stream_function_calling" = Some (PyStr "no_support")).
Proof.
  intros c.
  destruct (_add_custom_parameters_lookup credentials model)
    as (_ & _ & Hf & Hs & _).
  fold c in Hf, Hs. rewrite Hf, Hs.
  destruct (str_in model _); split; split; done.
Qed.

(** X4: a model that is given vision support is also given tool calling: there
    is no augmented mapping with [vision_support] "support" and
    [function_calling_type] [None]. *)
Theorem vision_implies_tool_call (credentials : dict) (model : string) :
  let c := _add_custom_parameters credentials model in
  c !! "vision_support" = Some (PyStr "support") →
  c !! "function_calling_type" = Some (PyStr "tool_call")
  ∧ c !! "stream_function_calling" = Some (PyStr "support").
Proof.
  intros c.
  destruct (_add_custom_parameters_lookup credentials model)
    as (_ & _ & Hf & Hs & Hv).
  fold c in Hf, Hs, Hv. rewrite Hf, Hs, Hv.
  destruct (String.eqb_spec model "HCX-005") as [-> | Hne]; [done |].
  intros [=].
Qed.

Lemma vision_implies_tool_call_witness :
  let c := _add_custom_parameters ∅ "HCX-005" in
  c !! "vision_support" = Some (PyStr "support")
  ∧ c !! "function_calling_type" = Some (PyStr "tool_call")
  ∧ c !! "stream_function_calling" = Some (PyStr "support").
Proof.
  intros c.
  assert (Hv : c !! "vision_support" = Some (PyStr "support")) by reflexivity.
  split; [exact Hv |].
  exact (vision_implies_tool_call ∅ "HCX-005" Hv).
Defined.

(** X5: the model identifier matters only through the two tests made on it:
    two identifiers give the same augmented mapping exactly when they agree on
    membership in the tool-calling list and on being "HCX-005". In particular
    every identifier outside the list gives the mapping "HCX-003" gives. *)
Theorem augmentation_same_class (credentials : dict) (model1 model2 : string) :
  _add_custom_parameters credentials model1 = _add_custom_parameters credentials model2
  ↔ (model1 ∈ ["HCX-007"; "HCX-005"; "HCX-DASH-002"]
     ↔ model2 ∈ ["HCX-007"; "HCX-005"; "HCX-DASH-002"])
    ∧ (model1 = "HCX-005" ↔ model2 = "HCX-005").
Proof.
  rewrite <- !str_in_true, <- !String.eqb_eq. split.
  - intros Heq.
    destruct (_add_custom_parameters_lookup credentials model1)
      as (_ & _ & Hf1 & _ & Hv1).
    destruct (_add_custom_parameters_lookup credentials model2)
      as (_ & _ & Hf2 & _ & Hv2).
    rewrite Heq, Hf2 in Hf1. rewrite Heq, Hv2 in Hv1.
    destruct (str_in model1 _), (str_in model2 _); try done;
      destruct (String.eqb model1 _), (String.eqb model2 _); done.
  - intros [Htool Hvision]. unfold _add_custom_parameters.
    destruct (str_in model1 _), (str_in model2 _);
      destruct (String.eqb model1 _), (String.eqb model2 _);
      try reflexivity; exfalso;
      first [ by apply Htool | by apply Hvision
            | by (discriminate (proj1 Htool eq_refl))
            | by (discriminate (proj2 Htool eq_refl))
            | by (discriminate (proj1 Hvision eq_refl))
            | by (discriminate (proj2 Hvision eq_refl)) ].
Qed.

(** ** Further properties of the Parameter Mapper *)

(** Off the reasoning model both tests fail. *)
Lemma _update_model_parameters_other (model : string) (model_parameters : dict) :
  String.eqb model "HCX-007" = false →
  _update_model_parameters model model_parameters = Ok model_parameters.
Proof.
  intros Hne. unfold _update_model_parameters. rewrite Hne. simpl.
  by rewrite andb_false_r.
Qed.

(** On the reasoning model the result always holds [reasoning_effort] and
    never holds [max_tokens]. *)
Lemma _update_model_parameters_hcx007_post (model_parameters r : dict) :
  _update_model_parameters "HCX-007" model_parameters = Ok r →
  is_Some (r !! "reasoning_effort") ∧ r !! "max_tokens" = None.
Proof.
  rewrite _update_model_parameters_hcx007. cbv zeta. intros [= <-].
  destruct (model_parameters !! "reasoning_effort") as [e|] eqn:He;
    destruct (model_parameters !! "max_tokens") as [t|] eqn:Ht;
    split; simplify_map_eq; by eauto.
Qed.

(** A mapping that holds [reasoning_effort] and no [max_tokens] is left as it
    is on the reasoning model. *)
Lemma _update_model_parameters_hcx007_fixed (model_parameters : dict) :
  is_Some (model_parameters !! "reasoning_effort") →
  model_parameters !! "max_tokens" = None →
  _update_model_parameters "HCX-007" model_parameters = Ok model_parameters.
Proof.
  intros [e He] Ht. rewrite _update_model_parameters_hcx007. cbv zeta.
  by rewrite He, Ht.
Qed.

(** X6: the mapper never raises [KeyError], for any model identifier and any
    mapping: the [pop] of [max_tokens] only runs when the key is there. *)
Theorem mapper_never_raises (model : string) (model_parameters : dict) (k : string) :
  _update_model_parameters model model_parameters ≠ KeyError k.
Proof.
  destruct (_update_model_parameters_total model model_parameters) as [r ->].
  discriminate.
Qed.

(** X7: the mapper is idempotent: it succeeds, and applying it again to its own
    result, for the same model, returns that result unchanged. Running it twice
    neither renames a second time nor resets [reasoning_effort]. *)
Theorem mapper_idempotent (model : string) (model_parameters : dict) :
  ∃ r, _update_model_parameters model model_parameters = Ok r
       ∧ _update_model_parameters model r = Ok r.
Proof.
  destruct (String.eqb_spec model "HCX-007") as [-> | Hne].
  - destruct (_update_model_parameters_total "HCX-007" model_parameters) as [r Hr].
    exists r. split; [exact Hr |].
    destruct (_update_model_parameters_hcx007_post _ _ Hr) as [Hre Hmt].
    by apply _update_model_parameters_hcx007_fixed.
  - apply String.eqb_neq in Hne. exists model_parameters.
    split; by apply _update_model_parameters_other.
Qed.

(** X8: for every model identifier the mapper leaves every key other than
    [reasoning_effort], [max_tokens] and [max_completion_tokens] as it was:
    same value if bound, still absent if not. *)
Theorem mapper_frame (model : string) (model_parameters : dict) (k : string) :
  k ∉ ["reasoning_effort"; "max_tokens"; "max_completion_tokens"] →
  ∃ r, _update_model_parameters model model_parameters = Ok r
       ∧ r !! k = model_parameters !! k.
Proof.
  intros Hk. rewrite !not_elem_of_cons in Hk. destruct Hk as (H1 & H2 & H3 & _).
  destruct (String.eqb_spec model "HCX-007") as [-> | Hne].
  - rewrite _update_model_parameters_hcx007. cbv zeta.
    eexists; split; [reflexivity |].
    destruct (model_parameters !! "reasoning_effort") as [e|] eqn:He;
      destruct (model_parameters !! "max_tokens") as [t|] eqn:Ht;
      by simplify_map_eq.
  - apply String.eqb_neq in Hne. exists model_parameters.
    split; [by apply _update_model_parameters_other | done].
Qed.

Lemma mapper_frame_witness :
  let mp : dict := {["max_tokens" := PyInt 256; "top_k" := PyInt 40]} in
  ∃ r, _update_model_parameters "HCX-007" mp = Ok r
       ∧ r !! "top_k" = Some (PyInt 40).
Proof.
  intros mp.
  assert (Hk : "top_k" ∉ ["reasoning_effort"; "max_tokens"; "max_completion_tokens"]).
  { rewrite !not_elem_of_cons. repeat split; try done. apply not_elem_of_nil. }
  exact (mapper_frame "HCX-007" mp "top_k" Hk).
Defined.

(** X9: when the mapping holds no [max_tokens], the mapper changes nothing
    except, possibly, [reasoning_effort]; in particular a
    [max_completion_tokens] supplied by the caller is kept. *)
Theorem mapper_without_max_tokens (model : string) (model_parameters : dict)
    (k : string) :
  model_parameters !! "max_tokens" = None →
  k ≠ "reasoning_effort" →
  ∃ r, _update_model_parameters model model_parameters = Ok r
       ∧ r !! k = model_parameters !! k.
Proof.
  intros Ht Hk.
  destruct (String.eqb_spec model "HCX-007") as [-> | Hne].
  - rewrite _update_model_parameters_hcx007. cbv zeta. rewrite Ht.
    eexists; split; [reflexivity |].
    destruct (model_parameters !! "reasoning_effort") as [e|] eqn:He;
      by simplify_map_eq.
  - apply String.eqb_neq in Hne. exists model_parameters.
    split; [by apply _update_model_parameters_other | done].
Qed.

Lemma mapper_without_max_tokens_witness :
  let mp : dict := {["max_completion_tokens" := PyInt 1024]} in
  ∃ r, _update_model_parameters "HCX-007" mp = Ok r
       ∧ r !! "max_completion_tokens" = Some (PyInt 1024).
Proof.
  intros mp.
  assert (Ht : mp !! "max_tokens" = None) by reflexivity.
  assert (Hk : "max_completion_tokens" ≠ "reasoning_effort") by done.
  exact (mapper_without_max_tokens "HCX-007" mp "max_completion_tokens" Ht Hk).
Defined.

(** X10: on "HCX-007" the mappings the mapper returns unchanged are exactly
    those that hold [reasoning_effort] and do not hold [max_tokens]. *)
Theorem mapper_fixed_points (model_parameters : dict) :
  _update_model_parameters "HCX-007" model_parameters = Ok model_parameters
  ↔ is_Some (model_parameters !! "reasoning_effort")
    ∧ model_parameters !! "max_tokens" = None.
Proof.
  split.
  - apply _update_model_parameters_hcx007_post.
  - intros [Hre Hmt]. by apply _update_model_parameters_hcx007_fixed.
Qed.

(** ** The facade and the mapper *)

(** X11: [_invoke] does not run the mapper. For "HCX-007" the parameters it
    hands to the base client are the mapper's result only when the mapper
    would change nothing, that is when they hold [reasoning_effort] and no
    [max_tokens]; otherwise [max_tokens] goes out unrenamed and no default
    [reasoning_effort] is added. *)
Theorem _invoke_skips_mapper {PromptMessage PromptMessageTool : Type}
    (credentials : dict) (prompt_messages : list PromptMessage)
    (model_parameters : dict) (tools : option (list PromptMessageTool))
    (stop : option (list string)) (stream : bool) (user : option string) :
  let sent :=
    si_model_parameters
      (_invoke "HCX-007" credentials prompt_messages model_parameters tools stop
         stream user) in
  sent !! "max_tokens" = model_parameters !! "max_tokens"
  ∧ sent !! "reasoning_effort" = model_parameters !! "reasoning_effort"
  ∧ (_update_model_parameters "HCX-007" model_parameters = Ok sent
     ↔ is_Some (model_parameters !! "reasoning_effort")
       ∧ model_parameters !! "max_tokens" = None).
Proof.
  intros sent. change sent with model_parameters.
  split; [done |]. split; [done |]. split.
  - apply _update_model_parameters_hcx007_post.
  - intros [Hre Hmt]. by apply _update_model_parameters_hcx007_fixed.
Qed.
